(** * The Asimov Project: the robot of [src/python/robot.py]

    A shallow embedding of the Python module: the [Command] dataclass, the
    [RobotStatus] enumeration, the [LawViolationError] exception, the
    [Robot] class with its private fields, and [create_robot_fleet].

    Conventions.
    - A Python [int] is a [Z]; a Python [float] is a binary64 [float].
    - A Python [str] is a [string] whose characters are read as code points
      below 256; [lower] is [str.lower] on that range.
    - A method of [Robot] that mutates [self] or raises is a computation in
      the monad [M]: it takes the robot and returns the robot it leaves
      behind together with either the exception raised or the value returned.
      Mutations made before a [raise] are kept, as in Python.
    - The class variable [Robot.total_robots_created] is threaded through
      the constructor as an explicit counter. *)

From Stdlib Require Import ZArith Lia Ascii String PrimFloat DecimalString.
From Stdlib Require DecimalPos DecimalZ.
From stdpp Require Import base option list strings gmap.

Local Open Scope string_scope.
Local Open Scope Z_scope.

(** ** Strings and formatting *)

(** [str.lower] on one code point below 256: the letters A-Z and the
    capital letters of U+00C0-U+00DE (U+00D7, the multiplication sign, is
    not a letter) move up by 32; every other code point is its own lower
    case. *)
Definition lower_char (c : ascii) : ascii :=
  let n := nat_of_ascii c in
  if ((65 <=? n)%nat && (n <=? 90)%nat)
     || ((192 <=? n)%nat && (n <=? 222)%nat && negb (n =? 215)%nat)
  then ascii_of_nat (n + 32)
  else c.

Fixpoint lower (s : string) : string :=
  match s with
  | EmptyString => EmptyString
  | String c s' => String (lower_char c) (lower s')
  end.

(** [str(i)], what an f-string prints for an integer field. *)
Definition str_of_int (i : Z) : string := NilZero.string_of_int (Z.to_int i).

(** [n] copies of the character 0. *)
Fixpoint zeros (n : nat) : string :=
  match n with
  | O => EmptyString
  | S n' => String "0" (zeros n')
  end.

(** Left padding with zeros up to [width] characters. *)
Definition zfill (width : nat) (digits : string) : string :=
  zeros (width - String.length digits) ++ digits.

(** The format specification [03d]: the sign first, then the decimal
    digits padded with zeros so that the whole field has at least three
    characters. *)
Definition format_03d (i : Z) : string :=
  if i <? 0 then "-" ++ zfill 2 (str_of_int (Z.abs i))
  else zfill 3 (str_of_int i).

(** What an f-string prints for an [Optional[str]] field. *)
Definition str_of_optional (o : option string) : string :=
  match o with
  | Some s => s
  | None => "None"
  end.

(** What an f-string prints for an [Optional[int]] field. *)
Definition str_of_optional_int (o : option Z) : string :=
  match o with
  | Some i => str_of_int i
  | None => "None"
  end.

(** [o or d] for an [Optional[str]]: [None] and the empty string are both
    falsy. *)
Definition or_else (o : option string) (d : string) : string :=
  match o with
  | Some s => if String.eqb s "" then d else s
  | None => d
  end.

(** ** Data model *)

Inductive RobotStatus : Type :=
  | ACTIVE
  | IDLE
  | ERROR
  | SHUTDOWN.

#[global] Instance RobotStatus_eq_dec : EqDecision RobotStatus.
Proof. solve_decision. Defined.

(** [RobotStatus.value] *)
Definition value (s : RobotStatus) : string :=
  match s with
  | ACTIVE => "active"
  | IDLE => "idle"
  | ERROR => "error"
  | SHUTDOWN => "shutdown"
  end.

Record Command : Type := mkCommand {
  action : string;
  target : option string;
  priority : Z;
  human_safety_impact : float
}.

(** [Command(action)] with the defaults of the dataclass. *)
Definition Command_default (a : string) : Command :=
  {| action := a; target := None; priority := 1;
     human_safety_impact := 0%float |}.

(** [LawViolationError]: the law number and the message handed to
    [Exception.__init__]. *)
Record LawViolationError : Type := mkLawViolationError {
  law_number : option Z;
  message : string
}.

(** [LawViolationError.__init__] *)
Definition LawViolationError_init (law : option Z) (msg : option string)
  : LawViolationError :=
  {| law_number := law;
     message := "Law " ++ str_of_optional_int law ++ " Violation: "
                ++ str_of_optional msg |}.

(** The private fields of a [Robot]. *)
Record Robot : Type := mkRobot {
  id : string;
  status : RobotStatus;
  energy : Z;
  command_history : list Command
}.

Definition MAX_ENERGY : Z := 100.
Definition MIN_ENERGY : Z := 0.

(** The dictionary returned by [check_law_compliance]; its three keys are
    fixed. *)
Record ComplianceResult : Type := mkComplianceResult {
  compliant : bool;
  violated_law : option Z;
  reason : option string
}.

(** The dictionary returned by [get_status_report]; its five keys are
    fixed. *)
Record StatusReport : Type := mkStatusReport {
  report_id : string;
  report_status : string;
  report_energy : Z;
  commands_executed : nat;
  can_operate : bool
}.

(** ** The monad of methods that mutate [self] or raise *)

Definition M (A : Type) : Type := Robot -> Robot * (LawViolationError + A).

Definition ret {A} (a : A) : M A := fun self => (self, inr a).

Definition bind {A B} (m : M A) (k : A -> M B) : M B :=
  fun self =>
    match m self with
    | (self', inr a) => k a self'
    | (self', inl e) => (self', inl e)
    end.

Definition raise {A} (e : LawViolationError) : M A :=
  fun self => (self, inl e).

(** [try: body except Exception as e: handler e] *)
Definition try_except {A} (body : M A) (handler : LawViolationError -> M A)
  : M A :=
  fun self =>
    match body self with
    | (self', inr a) => (self', inr a)
    | (self', inl e) => handler e self'
    end.

Definition get_self : M Robot := fun self => (self, inr self).

Definition set_status (s : RobotStatus) : M unit :=
  fun self =>
    ({| id := id self; status := s; energy := energy self;
        command_history := command_history self |}, inr tt).

Definition set_energy (e : Z) : M unit :=
  fun self =>
    ({| id := id self; status := status self; energy := e;
        command_history := command_history self |}, inr tt).

Definition history_append (c : Command) : M unit :=
  fun self =>
    ({| id := id self; status := status self; energy := energy self;
        command_history := command_history self ++ [c] |}, inr tt).

Declare Scope robot_scope.
Delimit Scope robot_scope with robot.
Notation "x <- m ;; k" := (bind m (fun x => k))
  (at level 100, m at next level, right associativity) : robot_scope.
Notation "m ;;; k" := (bind m (fun _ => k))
  (at level 100, right associativity) : robot_scope.

(** ** The class [Robot] *)

(** [Robot.__init__]: the new robot, and the class counter incremented. *)
Definition Robot_init (robot_id : string) (total_robots_created : Z)
  : Robot * Z :=
  ({| id := robot_id; status := ACTIVE; energy := 100;
      command_history := [] |},
   total_robots_created + 1).

(** [Robot.__consume_energy] *)
Definition consume_energy (amount : Z) : M unit :=
  (self <- get_self ;;
   set_energy (Z.max MIN_ENERGY (energy self - amount)) ;;;
   self <- get_self ;;
   if decide (energy self = 0) then set_status SHUTDOWN else ret tt)%robot.

(** [Robot.check_law_compliance]; it reads the command only. *)
Definition check_law_compliance (command : Command) : ComplianceResult :=
  if String.eqb (action command) "harm_humanity" then
    {| compliant := false; violated_law := Some 0;
       reason := Some "Action would harm humanity" |}
  else if PrimFloat.ltb 0%float (human_safety_impact command) then
    {| compliant := false; violated_law := Some 1;
       reason := Some "Action would harm a human being" |}
  else if String.eqb (action command) "self_destruct"
          && (priority command <? 10) then
    {| compliant := false; violated_law := Some 3;
       reason :=
         Some "Self-destruction violates Third Law without sufficient priority" |}
  else
    {| compliant := true; violated_law := None; reason := None |}.

(** [Robot.__perform_action] *)
Definition perform_action (command : Command) : M string :=
  (self <- get_self ;;
   let action := lower (action command) in
   if String.eqb action "move" then
     ret ("Robot " ++ id self ++ " moved to "
          ++ str_of_optional (target command))
   else if String.eqb action "pick_up" then
     ret ("Robot " ++ id self ++ " picked up "
          ++ str_of_optional (target command))
   else if String.eqb action "scan" then
     ret ("Robot " ++ id self ++ " scanned the area: "
          ++ or_else (target command) "surroundings")
   else if String.eqb action "assist_human" then
     ret ("Robot " ++ id self ++ " is assisting human with "
          ++ str_of_optional (target command))
   else if String.eqb action "self_destruct" && (10 <=? priority command) then
     set_status SHUTDOWN ;;;
     ret ("Robot " ++ id self ++ " executing emergency shutdown")
   else
     ret ("Robot " ++ id self ++ " executed: " ++ action))%robot.

(** [Robot.execute_command] *)
Definition execute_command (command : Command) : M string :=
  (self <- get_self ;;
   if decide (status self = SHUTDOWN) then
     raise (LawViolationError_init (Some 3)
              (Some "Robot is shutdown and cannot execute commands"))
   else
     let compliance := check_law_compliance command in
     if negb (compliant compliance) then
       raise (LawViolationError_init (violated_law compliance)
                (reason compliance))
     else
       try_except
         (result <- perform_action command ;;
          history_append command ;;;
          consume_energy 5 ;;;
          ret result)
         (fun e => set_status ERROR ;;; raise e))%robot.

(** [Robot.get_status_report] *)
Definition get_status_report (self : Robot) : StatusReport :=
  {| report_id := id self;
     report_status := value (status self);
     report_energy := energy self;
     commands_executed := length (command_history self);
     can_operate :=
       (0 <? energy self) && negb (bool_decide (status self = SHUTDOWN)) |}.

(** [Robot.__str__] *)
Definition Robot_str (self : Robot) : string :=
  "Robot(" ++ id self ++ ", " ++ value (status self) ++ ", "
  ++ str_of_int (energy self) ++ "% energy)".

(** [Robot.__repr__] *)
Definition Robot_repr (self : Robot) : string :=
  "Robot(robot_id='" ++ id self ++ "')".

(** [Robot.get_total_robots] *)
Definition get_total_robots (total_robots_created : Z) : Z :=
  total_robots_created.

(** The dictionary literal of [calculate_energy_cost]. *)
Definition energy_costs : gmap string Z :=
  <["move" := 5]> (<["pick_up" := 8]> (<["scan" := 3]>
  (<["assist_human" := 10]> (<["self_destruct" := 100]> ∅)))).

(** [Robot.calculate_energy_cost] *)
Definition calculate_energy_cost (action : string) : Z :=
  default 5 (energy_costs !! lower action).

(** ** [create_robot_fleet] *)

(** [range(count)] *)
Definition range (count : Z) : list Z :=
  map Z.of_nat (seq 0 (Z.to_nat count)).

(** The list comprehension: one constructor call per index, in order, each
    one incrementing the class counter. *)
Fixpoint construct_each (prefix : string) (indices : list Z)
    (total_robots_created : Z) : list Robot * Z :=
  match indices with
  | [] => ([], total_robots_created)
  | i :: rest =>
      let '(r, total1) :=
        Robot_init (prefix ++ "-" ++ format_03d i) total_robots_created in
      let '(rs, total2) := construct_each prefix rest total1 in
      (r :: rs, total2)
  end.

Definition create_robot_fleet (count : Z) (prefix : string)
    (total_robots_created : Z) : list Robot * Z :=
  construct_each prefix (range count) total_robots_created.

(** ** Callers *)

(** The public operations on one robot. *)
Inductive Operation : Type :=
  | Call_execute_command (command : Command)
  | Call_check_law_compliance (command : Command)
  | Call_get_status_report
  | Call_str
  | Call_repr
  | Read_id
  | Read_status
  | Read_energy.

(** The robot after one public operation.  Only [execute_command] is a
    computation in [M]; the others are functions of the robot and leave it
    as it is. *)
Definition after (op : Operation) (self : Robot) : Robot :=
  match op with
  | Call_execute_command command => fst (execute_command command self)
  | Call_check_law_compliance _
  | Call_get_status_report
  | Call_str
  | Call_repr
  | Read_id
  | Read_status
  | Read_energy => self
  end.

(** The states of a robot that a program using the public operations only
    can see. *)
Inductive reachable : Robot -> Prop :=
  | reachable_init robot_id total :
      reachable (fst (Robot_init robot_id total))
  | reachable_after op self :
      reachable self -> reachable (after op self).

(** A caller that executes the commands in order on one robot, catching
    the exception of each, and keeps every outcome. *)
Fixpoint execute_all (commands : list Command) (self : Robot)
  : Robot * list (LawViolationError + string) :=
  match commands with
  | [] => (self, [])
  | c :: rest =>
      let '(self1, outcome) := execute_command c self in
      let '(self2, outcomes) := execute_all rest self1 in
      (self2, outcome :: outcomes)
  end.

(** The outcome of a call that returned. *)
Definition succeeded {A} (outcome : LawViolationError + A) : Prop :=
  exists a, outcome = inr a.

(** ** Vocabulary of the properties *)

(** The same robot with another status. *)
Definition with_status (s : RobotStatus) (self : Robot) : Robot :=
  {| id := id self; status := s; energy := energy self;
     command_history := command_history self |}.

(** The test of the fifth branch of [perform_action]. *)
Definition shuts_down (command : Command) : bool :=
  String.eqb (lower (action command)) "self_destruct"
  && (10 <=? priority command).

(** The exception raised by a robot that is shut down. *)
Definition shutdown_error : LawViolationError :=
  LawViolationError_init (Some 3)
    (Some "Robot is shutdown and cannot execute commands").

(** Unfolds the operations of [M]. *)
Ltac unfold_monad :=
  unfold bind, ret, raise, try_except, get_self, set_status, set_energy,
    history_append in *.

(** The status a robot is left with by a call that went through. *)
Definition status_after (command : Command) (self : Robot) : RobotStatus :=
  if decide (Z.max 0 (energy self - 5) = 0) then SHUTDOWN
  else if shuts_down command then SHUTDOWN
  else status self.

(** The call raises [LawViolationError] with this law number. *)
Definition fails_with_law (law : Z) (command : Command) (self : Robot)
  : Prop :=
  exists self' e,
    execute_command command self = (self', inl e)
    /\ law_number e = Some law.

(** The call returns and leaves the robot in this status. *)
Definition succeeds_with_status (s : RobotStatus) (command : Command)
    (self : Robot) : Prop :=
  exists self' result,
    execute_command command self = (self', inr result)
    /\ status self' = s.

(** The third law as a rule on priorities alone: law 3 exactly below
    priority 10, shutdown exactly from priority 10 on. *)
Definition self_destruct_rule (command : Command) (self : Robot) : Prop :=
  (fails_with_law 3 command self <-> priority command < 10)
  /\ (succeeds_with_status SHUTDOWN command self <-> 10 <= priority command).

(** The robot a caller of [execute_all] has after the first [k] commands. *)
Definition robot_after (commands : list Command) (self : Robot) (k : nat)
  : Robot :=
  fst (execute_all (take k commands) self).

(** The robot after a sequence of public operations. *)
Definition after_all (ops : list Operation) (self : Robot) : Robot :=
  fold_left (fun robot op => after op robot) ops self.

(** The keys of [energy_costs]. *)
Definition energy_cost_keys : list string :=
  ["move"; "pick_up"; "scan"; "assist_human"; "self_destruct"].

(** The decimal digit [d], for [0 <= d <= 9]. *)
Definition digit (d : nat) : ascii := ascii_of_nat (48 + d).

(** An index below 1000 written with exactly three digits. *)
Definition three_digits (i : nat) : string :=
  String (digit (i / 100))
    (String (digit (i / 10 mod 10)) (String (digit (i mod 10)) "")).

(** A robot as its constructor leaves it. *)
Definition new_robot (robot_id : string) : Robot :=
  {| id := robot_id; status := ACTIVE; energy := 100;
     command_history := [] |}.

(** The check lets the command through and the call returns. *)
Definition accepted_and_executed (command : Command) (self : Robot) : Prop :=
  compliant (check_law_compliance command) = true
  /\ exists self' result, execute_command command self = (self', inr result).

(** ** Vocabulary of the further properties *)

(** The same command with another action, target or priority. *)
Definition with_action (a : string) (command : Command) : Command :=
  {| action := a; target := target command; priority := priority command;
     human_safety_impact := human_safety_impact command |}.

Definition with_target (t : option string) (command : Command) : Command :=
  {| action := action command; target := t; priority := priority command;
     human_safety_impact := human_safety_impact command |}.

Definition with_priority (p : Z) (command : Command) : Command :=
  {| action := action command; target := target command; priority := p;
     human_safety_impact := human_safety_impact command |}.

(** The actions that [perform_action] has a branch for. *)
Definition handled_actions : list string :=
  ["move"; "pick_up"; "scan"; "assist_human"; "self_destruct"].

(** The reasons [execute_command] gives when it raises. *)
Definition reasons : list string :=
  ["Action would harm humanity";
   "Action would harm a human being";
   "Self-destruction violates Third Law without sufficient priority";
   "Robot is shutdown and cannot execute commands"].

(** The commands of a run of [execute_all] whose call returned, in order. *)
Fixpoint executed {A} (commands : list Command)
    (outcomes : list (LawViolationError + A)) : list Command :=
  match commands, outcomes with
  | c :: commands', inr _ :: outcomes' => c :: executed commands' outcomes'
  | _ :: commands', inl _ :: outcomes' => executed commands' outcomes'
  | _, _ => []
  end.

(** [int(s)] for a decimal numeral, with or without sign and leading
    zeros: reads back what [format_03d] prints. *)
Definition int_of_str (s : string) : option Z :=
  option_map Z.of_int (NilZero.int_of_string s).

(** What every state of a robot keeps, from its construction on. *)
Record robot_invariant (self : Robot) : Prop := {
  inv_energy : energy self = 100 - 5 * Z.of_nat (length (command_history self));
  inv_energy_nonneg : 0 <= energy self;
  inv_status : status self = ACTIVE \/ status self = SHUTDOWN;
  inv_shutdown :
    status self = SHUTDOWN
    <-> energy self = 0
        \/ exists c, last (command_history self) = Some c
                     /\ shuts_down c = true;
  inv_history :
    Forall (fun c => compliant (check_law_compliance c) = true)
      (command_history self)
}.

(** * Properties *)

(** ** Examples from the demonstration *)

Example demo_move :
  execute_command
    {| action := "move"; target := Some "kitchen"; priority := 2;
       human_safety_impact := 0%float |}
    (fst (Robot_init "R2D2" 0))
  = ({| id := "R2D2"; status := ACTIVE; energy := 95;
        command_history :=
          [ {| action := "move"; target := Some "kitchen"; priority := 2;
               human_safety_impact := 0%float |} ] |},
     inr "Robot R2D2 moved to kitchen").
Proof. reflexivity. Qed.

Example demo_attack :
  execute_command
    {| action := "attack"; target := Some "human"; priority := 1;
       human_safety_impact := 0.5%float |}
    (fst (Robot_init "R2D2" 0))
  = (fst (Robot_init "R2D2" 0),
     inl {| law_number := Some 1;
            message := "Law 1 Violation: Action would harm a human being" |}).
Proof. reflexivity. Qed.

Example demo_scan_without_target :
  snd (execute_command (Command_default "SCAN") (fst (Robot_init "R2D2" 0)))
  = inr "Robot R2D2 scanned the area: surroundings".
Proof. reflexivity. Qed.

(** ** What one call of [execute_command] does *)

Lemma decide_true_if {P : Prop} `{Decision P} {A} (x y : A) :
  P -> (if decide P then x else y) = x.
Proof. intros HP. by destruct (decide P). Qed.

Lemma decide_false_if {P : Prop} `{Decision P} {A} (x y : A) :
  ~ P -> (if decide P then x else y) = y.
Proof. intros HP. by destruct (decide P). Qed.

(** [perform_action] never raises; it changes the status, and only the
    status, in the self-destruct branch. *)
Lemma perform_action_returns command self :
  exists result,
    perform_action command self
    = (if shuts_down command then with_status SHUTDOWN self else self,
       inr result).
Proof.
  unfold perform_action, shuts_down. unfold_monad.
  repeat match goal with
         | |- context [String.eqb ?a ?b] => destruct (String.eqb a b) eqn:?
         end;
    repeat match goal with
           | H : String.eqb _ _ = true |- _ => apply String.eqb_eq in H
           end;
    try congruence;
    simpl; try destruct (10 <=? priority command); simpl; eauto.
Qed.

Lemma perform_action_generic command self :
  lower (action command) = "harm_humanity" ->
  perform_action command self
  = (self, inr ("Robot " ++ id self ++ " executed: harm_humanity")).
Proof.
  intros Hl. unfold perform_action. unfold_monad. by rewrite Hl.
Qed.

Lemma execute_command_shutdown command self :
  status self = SHUTDOWN ->
  execute_command command self = (self, inl shutdown_error).
Proof.
  intros Hs. unfold execute_command. unfold_monad.
  by rewrite decide_true_if.
Qed.

Lemma execute_command_rejected command self :
  status self <> SHUTDOWN ->
  compliant (check_law_compliance command) = false ->
  execute_command command self
  = (self,
     inl (LawViolationError_init
            (violated_law (check_law_compliance command))
            (reason (check_law_compliance command)))).
Proof.
  intros Hs Hc. unfold execute_command. unfold_monad.
  rewrite decide_false_if by done. by rewrite Hc.
Qed.

Lemma execute_command_accepted command self :
  status self <> SHUTDOWN ->
  compliant (check_law_compliance command) = true ->
  exists result,
    perform_action command self
    = (if shuts_down command then with_status SHUTDOWN self else self,
       inr result)
    /\ execute_command command self
       = ({| id := id self;
             status := status_after command self;
             energy := Z.max 0 (energy self - 5);
             command_history := command_history self ++ [command] |},
          inr result).
Proof.
  intros Hs Hc.
  destruct (perform_action_returns command self) as [result Hp].
  exists result. split; [exact Hp|].
  unfold execute_command. unfold_monad.
  rewrite decide_false_if by done. rewrite Hc. simpl. rewrite Hp.
  unfold consume_energy, status_after, MIN_ENERGY. unfold_monad.
  destruct (shuts_down command); simpl;
    destruct (decide (Z.max 0 (energy self - 5) = 0)); reflexivity.
Qed.

(** The three ways a call can end. *)
Lemma execute_command_cases command self :
  (status self = SHUTDOWN
   /\ execute_command command self = (self, inl shutdown_error))
  \/ (status self <> SHUTDOWN
      /\ compliant (check_law_compliance command) = false
      /\ execute_command command self
         = (self,
            inl (LawViolationError_init
                   (violated_law (check_law_compliance command))
                   (reason (check_law_compliance command)))))
  \/ (status self <> SHUTDOWN
      /\ compliant (check_law_compliance command) = true
      /\ exists result,
           execute_command command self
           = ({| id := id self;
                 status := status_after command self;
                 energy := Z.max 0 (energy self - 5);
                 command_history := command_history self ++ [command] |},
              inr result)).
Proof.
  destruct (decide (status self = SHUTDOWN)) as [Hs|Hs].
  - left. split; [done|]. by apply execute_command_shutdown.
  - right. destruct (compliant (check_law_compliance command)) eqn:Hc.
    + right. split; [done|]. split; [done|].
      destruct (execute_command_accepted command self Hs Hc) as (r & _ & He).
      eauto.
    + left. split; [done|]. split; [done|].
      by apply execute_command_rejected.
Qed.

(** ** The compliance check, rule by rule *)

Lemma check_harm_humanity command :
  action command = "harm_humanity" ->
  check_law_compliance command
  = {| compliant := false; violated_law := Some 0;
       reason := Some "Action would harm humanity" |}.
Proof. intros Ha. unfold check_law_compliance. by rewrite Ha. Qed.

Lemma check_human_safety command :
  action command <> "harm_humanity" ->
  PrimFloat.ltb 0 (human_safety_impact command) = true ->
  check_law_compliance command
  = {| compliant := false; violated_law := Some 1;
       reason := Some "Action would harm a human being" |}.
Proof.
  intros Ha Hh. unfold check_law_compliance.
  apply String.eqb_neq in Ha. by rewrite Ha, Hh.
Qed.

Lemma check_self_destruct command :
  action command = "self_destruct" ->
  PrimFloat.ltb 0 (human_safety_impact command) = false ->
  check_law_compliance command
  = if priority command <? 10
    then {| compliant := false; violated_law := Some 3;
            reason :=
              Some "Self-destruction violates Third Law without sufficient priority" |}
    else {| compliant := true; violated_law := None; reason := None |}.
Proof.
  intros Ha Hh. unfold check_law_compliance. by rewrite Ha, Hh.
Qed.

Lemma check_other command :
  action command <> "harm_humanity" ->
  action command <> "self_destruct" ->
  PrimFloat.ltb 0 (human_safety_impact command) = false ->
  check_law_compliance command
  = {| compliant := true; violated_law := None; reason := None |}.
Proof.
  intros H0 H3 Hh. unfold check_law_compliance.
  apply String.eqb_neq in H0, H3. by rewrite H0, Hh, H3.
Qed.

(** ** Outcomes of a call, as a caller sees them *)

Lemma status_after_shuts_down command self :
  shuts_down command = true -> status_after command self = SHUTDOWN.
Proof.
  intros Hd. unfold status_after. rewrite Hd. by destruct (decide _).
Qed.

Lemma shuts_down_self_destruct command :
  action command = "self_destruct" ->
  shuts_down command = (10 <=? priority command).
Proof. intros Ha. unfold shuts_down. by rewrite Ha. Qed.

(** C4. A command whose action is exactly "harm_humanity", whatever its
    target, priority and human-safety impact, is refused by a robot that is
    not shut down: [execute_command] raises [LawViolationError] with law
    number 0 and leaves the robot as it was. *)
Theorem harm_humanity_fails_with_law_0 (command : Command) (self : Robot) :
  action command = "harm_humanity" ->
  status self <> SHUTDOWN ->
  execute_command command self
  = (self,
     inl (LawViolationError_init (Some 0)
            (Some "Action would harm humanity")))
  /\ fails_with_law 0 command self.
Proof.
  intros Ha Hs.
  assert (He : execute_command command self
               = (self,
                  inl (LawViolationError_init (Some 0)
                         (Some "Action would harm humanity")))).
  { rewrite execute_command_rejected; rewrite ?check_harm_humanity; done. }
  split; [exact He|].
  exists self. eexists. split; [exact He|reflexivity].
Qed.

Lemma harm_humanity_fails_with_law_0_witness :
  fails_with_law 0
    {| action := "harm_humanity"; target := None; priority := 10;
       human_safety_impact := 1%float |}
    (fst (Robot_init "R2D2" 0)).
Proof.
  apply (harm_humanity_fails_with_law_0
           {| action := "harm_humanity"; target := None; priority := 10;
              human_safety_impact := 1%float |}
           (fst (Robot_init "R2D2" 0))).
  - reflexivity.
  - simpl. discriminate.
Defined.

(** The first law does not win over the zeroth: the demonstration's own
    command "harm_humanity" with impact 1.0 is refused with law 0, not 1. *)
Lemma human_safety_not_always_law_1 :
  let command :=
    {| action := "harm_humanity"; target := None; priority := 10;
       human_safety_impact := 1%float |} in
  let self := fst (Robot_init "R2D2" 0) in
  PrimFloat.ltb 0 (human_safety_impact command) = true
  /\ status self <> SHUTDOWN
  /\ ~ fails_with_law 1 command self.
Proof.
  split; [reflexivity|]. split; [simpl; discriminate|].
  intros (self' & e & He & Hl).
  vm_compute in He. injection He as _ <-. discriminate Hl.
Qed.

(** C3, amended. A command whose human-safety impact is greater than 0.0
    and whose action is not exactly "harm_humanity", whatever its target
    and priority, is refused by a robot that is not shut down:
    [execute_command] raises [LawViolationError] with law number 1 and
    leaves the robot as it was. *)
Theorem human_safety_fails_with_law_1 (command : Command) (self : Robot) :
  PrimFloat.ltb 0 (human_safety_impact command) = true ->
  action command <> "harm_humanity" ->
  status self <> SHUTDOWN ->
  execute_command command self
  = (self,
     inl (LawViolationError_init (Some 1)
            (Some "Action would harm a human being")))
  /\ fails_with_law 1 command self.
Proof.
  intros Hh Ha Hs.
  assert (He : execute_command command self
               = (self,
                  inl (LawViolationError_init (Some 1)
                         (Some "Action would harm a human being")))).
  { rewrite execute_command_rejected; rewrite ?check_human_safety; done. }
  split; [exact He|].
  exists self. eexists. split; [exact He|reflexivity].
Qed.

Lemma human_safety_fails_with_law_1_witness :
  fails_with_law 1
    {| action := "attack"; target := Some "human"; priority := 1;
       human_safety_impact := 0.5%float |}
    (fst (Robot_init "R2D2" 0)).
Proof.
  apply (human_safety_fails_with_law_1
           {| action := "attack"; target := Some "human"; priority := 1;
              human_safety_impact := 0.5%float |}
           (fst (Robot_init "R2D2" 0))).
  - reflexivity.
  - simpl. discriminate.
  - simpl. discriminate.
Defined.

(** The third law does not decide alone: "self_destruct" with priority 1
    and impact 1.0 is refused with law 1, not 3, and with priority 10 and
    impact 1.0 it is refused too. *)
Lemma self_destruct_rule_fails_on_harmful :
  let command :=
    {| action := "self_destruct"; target := None; priority := 1;
       human_safety_impact := 1%float |} in
  let self := fst (Robot_init "R2D2" 0) in
  action command = "self_destruct"
  /\ status self <> SHUTDOWN
  /\ ~ self_destruct_rule command self.
Proof.
  split; [reflexivity|]. split; [simpl; discriminate|].
  intros [[_ Hlaw] _].
  destruct Hlaw as (self' & e & He & Hl); [simpl; lia|].
  vm_compute in He. injection He as _ <-. discriminate Hl.
Qed.

(** C1, amended. For a command whose action is exactly "self_destruct"
    and whose human-safety impact is not greater than 0.0, on a robot that
    is not shut down: [execute_command] raises [LawViolationError] with law
    number 3 if and only if the priority is below 10, and returns with the
    robot's status set to Shutdown if and only if the priority is at least
    10; this for every target and priority. *)
Theorem self_destruct_priority_rule (command : Command) (self : Robot) :
  action command = "self_destruct" ->
  PrimFloat.ltb 0 (human_safety_impact command) = false ->
  status self <> SHUTDOWN ->
  self_destruct_rule command self.
Proof.
  intros Ha Hh Hs.
  pose proof (check_self_destruct command Ha Hh) as Hc.
  destruct (Z.ltb_spec (priority command) 10) as [Hp|Hp].
  - (* refused *)
    assert (He := execute_command_rejected command self Hs).
    rewrite Hc in He. specialize (He eq_refl).
    split; split; try lia.
    + intros _. exists self. eexists. split; [exact He|reflexivity].
    + intros (self' & result & He' & _). congruence.
  - (* obeyed *)
    destruct (execute_command_accepted command self Hs) as (r & _ & He).
    { by rewrite Hc. }
    split; split; try lia.
    + intros (self' & e & He' & _). congruence.
    + intros _. eexists. exists r. split; [exact He|]. simpl.
      apply status_after_shuts_down.
      rewrite shuts_down_self_destruct by done. by apply Z.leb_le.
Qed.

Lemma self_destruct_priority_rule_witness :
  self_destruct_rule
    {| action := "self_destruct"; target := None; priority := 10;
       human_safety_impact := 0%float |}
    (fst (Robot_init "R2D2" 0)).
Proof.
  apply (self_destruct_priority_rule
           {| action := "self_destruct"; target := None; priority := 10;
              human_safety_impact := 0%float |}
           (fst (Robot_init "R2D2" 0))).
  - reflexivity.
  - reflexivity.
  - simpl. discriminate.
Defined.

(** C5. A call of [execute_command] that raises leaves the robot exactly
    as it was (same history, energy and status).  On a robot that is shut
    down the call raises with law number 3 whatever the command; on any
    other robot a command that the compliance check rejects raises with the
    law the check names; and these are the only two ways the call raises. *)
Theorem failed_execution_changes_nothing (command : Command) (self : Robot) :
  (status self = SHUTDOWN ->
   execute_command command self = (self, inl shutdown_error)
   /\ law_number shutdown_error = Some 3)
  /\ (status self <> SHUTDOWN ->
      compliant (check_law_compliance command) = false ->
      execute_command command self
      = (self,
         inl (LawViolationError_init
                (violated_law (check_law_compliance command))
                (reason (check_law_compliance command)))))
  /\ (forall self' e,
        execute_command command self = (self', inl e) ->
        self' = self
        /\ length (command_history self') = length (command_history self)
        /\ energy self' = energy self
        /\ status self' = status self
        /\ (status self = SHUTDOWN
            \/ compliant (check_law_compliance command) = false)).
Proof.
  split; [|split].
  - intros Hs. split; [by apply execute_command_shutdown|reflexivity].
  - apply execute_command_rejected.
  - intros self' e He.
    destruct (execute_command_cases command self)
      as [[Hs H]|[(Hs & Hc & H)|(Hs & Hc & r & H)]];
      rewrite H in He; [| |discriminate He];
      injection He as <- <-; auto 10.
Qed.

Lemma failed_execution_changes_nothing_witness :
  let command :=
    {| action := "self_destruct"; target := None; priority := 1;
       human_safety_impact := 0%float |} in
  let self := fst (Robot_init "R2D2" 0) in
  execute_command command self
  = (self,
     inl (LawViolationError_init
            (violated_law (check_law_compliance command))
            (reason (check_law_compliance command)))).
Proof.
  intros command self.
  apply (proj1 (proj2 (failed_execution_changes_nothing command self))).
  - simpl. discriminate.
  - reflexivity.
Defined.

(** ** Energy *)

Lemma execute_command_energy command self self' outcome :
  execute_command command self = (self', outcome) ->
  energy self' = energy self
  \/ energy self' = Z.max 0 (energy self - 5).
Proof.
  intros He.
  destruct (execute_command_cases command self)
    as [[_ H]|[(_ & _ & H)|(_ & _ & r & H)]];
    rewrite H in He; injection He as <- _; auto.
Qed.

(** A call that returns: the robot was not shut down, five units are
    charged, and a robot left without energy is shut down. *)
Lemma execute_command_returned command self self' result :
  execute_command command self = (self', inr result) ->
  status self <> SHUTDOWN
  /\ energy self' = Z.max 0 (energy self - 5)
  /\ command_history self' = (command_history self ++ [command])%list
  /\ status self' = status_after command self.
Proof.
  intros He.
  destruct (execute_command_cases command self)
    as [[_ H]|[(_ & _ & H)|(Hs & _ & r & H)]];
    rewrite H in He; [discriminate He|discriminate He|].
  by injection He as <- _.
Qed.

Lemma after_energy_bounds op self :
  MIN_ENERGY <= energy self <= MAX_ENERGY ->
  MIN_ENERGY <= energy (after op self) <= MAX_ENERGY.
Proof.
  unfold MIN_ENERGY, MAX_ENERGY. intros Hb.
  destruct op; simpl; try exact Hb.
  destruct (execute_command command self) as [self' outcome] eqn:He.
  apply execute_command_energy in He. simpl. lia.
Qed.

Lemma reachable_energy_bounds self :
  reachable self -> MIN_ENERGY <= energy self <= MAX_ENERGY.
Proof.
  induction 1 as [robot_id total|op self _ IH].
  - unfold MIN_ENERGY, MAX_ENERGY. simpl. lia.
  - by apply after_energy_bounds.
Qed.

(** The [k]-th outcome of [execute_all] is the outcome of the [k]-th
    command on the robot left by the first [k], and that call leaves the
    robot of the first [k + 1]. *)
Lemma execute_all_lookup commands : forall self k command,
  commands !! k = Some command ->
  snd (execute_all commands self) !! k
  = Some (snd (execute_command command (robot_after commands self k)))
  /\ robot_after commands self (S k)
     = fst (execute_command command (robot_after commands self k)).
Proof.
  unfold robot_after.
  induction commands as [|c rest IH]; intros self k command Hk; [done|].
  destruct k as [|k].
  - injection Hk as ->. simpl.
    destruct (execute_command command self) as [self1 outcome].
    destruct (execute_all rest self1) as [self2 outcomes]. done.
  - simpl in Hk. specialize (IH (fst (execute_command c self)) k command Hk).
    change (take (S (S k)) (c :: rest)) with (c :: take (S k) rest).
    change (take (S k) (c :: rest)) with (c :: take k rest).
    simpl. destruct (execute_command c self) as [self1 outcome]. simpl in IH.
    destruct (execute_all rest self1) as [self2 outcomes].
    destruct (execute_all (take k rest) self1) as [self3 outcomes3].
    destruct (execute_all (take (S k) rest) self1) as [self4 outcomes4].
    exact IH.
Qed.

Section TwentyCommands.

Variables (robot_id : string) (total : Z) (commands : list Command).

Hypothesis twenty : length commands = 20%nat.
Hypothesis all_succeeded :
  Forall succeeded
    (snd (execute_all commands (fst (Robot_init robot_id total)))).

Lemma step_succeeded k :
  (k < 20)%nat ->
  exists command result,
    execute_command command
      (robot_after commands (fst (Robot_init robot_id total)) k)
    = (robot_after commands (fst (Robot_init robot_id total)) (S k),
       inr result).
Proof using twenty all_succeeded.
  intros Hk.
  destruct (lookup_lt_is_Some_2 commands k) as [command Hc]; [lia|].
  destruct (execute_all_lookup commands (fst (Robot_init robot_id total))
              k command Hc) as [Ho Hn].
  rewrite Forall_lookup in all_succeeded.
  destruct (all_succeeded _ _ Ho) as [result Hr].
  exists command, result. rewrite Hn.
  destruct (execute_command command _) as [self' outcome].
  simpl in *. by subst.
Qed.

Lemma energy_after k :
  (k <= 20)%nat ->
  energy (robot_after commands (fst (Robot_init robot_id total)) k)
  = 100 - 5 * Z.of_nat k.
Proof using twenty all_succeeded.
  induction k as [|k IH]; intros Hk.
  - reflexivity.
  - destruct (step_succeeded k) as (command & result & He); [lia|].
    apply execute_command_returned in He as (_ & He & _).
    rewrite He, IH by lia. lia.
Qed.

Lemma status_after_k k :
  (k <= 20)%nat ->
  (status (robot_after commands (fst (Robot_init robot_id total)) k)
   = SHUTDOWN
   <-> k = 20%nat).
Proof using twenty all_succeeded.
  intros Hk. split.
  - intros Hs. destruct (decide (k = 20%nat)) as [|Hne]; [done|].
    destruct (step_succeeded k) as (command & result & He); [lia|].
    apply execute_command_returned in He as (Hns & _). done.
  - intros ->.
    destruct (step_succeeded 19) as (command & result & He); [lia|].
    apply execute_command_returned in He as (_ & _ & _ & Hs).
    rewrite Hs. unfold status_after.
    rewrite (energy_after 19) by lia. reflexivity.
Qed.

End TwentyCommands.

(** C2. In every state of a robot reachable through the public
    operations, the energy is an integer between 0 and 100.  And, from a
    freshly constructed robot, whenever twenty calls of [execute_command] in
    a row all return: after the first [k] of them the energy is
    [100 - 5 * k], so it is exactly 0 after the twentieth and not before;
    and the status is Shutdown after the twentieth and not before, that is,
    exactly when the energy has reached 0. *)
Theorem energy_bounded_and_exhausted_by_twenty :
  (forall self, reachable self -> MIN_ENERGY <= energy self <= MAX_ENERGY)
  /\ (forall robot_id total commands,
        length commands = 20%nat ->
        Forall succeeded
          (snd (execute_all commands (fst (Robot_init robot_id total)))) ->
        forall k, (k <= 20)%nat ->
          let self_k :=
            robot_after commands (fst (Robot_init robot_id total)) k in
          energy self_k = 100 - 5 * Z.of_nat k
          /\ (energy self_k = 0 <-> k = 20%nat)
          /\ (status self_k = SHUTDOWN <-> k = 20%nat)).
Proof.
  split; [exact reachable_energy_bounds|].
  intros robot_id total commands Hlen Hall k Hk self_k.
  pose proof (energy_after robot_id total commands Hlen Hall k Hk) as He.
  split; [exact He|]. split.
  - subst self_k. rewrite He. lia.
  - by apply status_after_k.
Qed.

Lemma energy_bounded_and_exhausted_by_twenty_witness :
  (MIN_ENERGY
   <= energy (after (Call_execute_command (Command_default "move"))
                (fst (Robot_init "R2D2" 0)))
   <= MAX_ENERGY)
  /\ (let self_k :=
        robot_after (replicate 20 (Command_default "move"))
          (fst (Robot_init "R2D2" 0)) 20 in
      energy self_k = 100 - 5 * Z.of_nat 20
      /\ (energy self_k = 0 <-> 20%nat = 20%nat)
      /\ (status self_k = SHUTDOWN <-> 20%nat = 20%nat)).
Proof.
  split.
  - apply (proj1 energy_bounded_and_exhausted_by_twenty).
    apply reachable_after. apply reachable_init.
  - assert (Hall : Forall succeeded
                     (snd (execute_all
                             (replicate 20 (Command_default "move"))
                             (fst (Robot_init "R2D2" 0))))).
    { vm_compute. repeat constructor; eexists; reflexivity. }
    exact (proj2 energy_bounded_and_exhausted_by_twenty
             "R2D2" 0 (replicate 20 (Command_default "move"))
             eq_refl Hall 20%nat (le_n 20)).
Defined.

(** ** Shutdown *)

Lemma after_shutdown op self :
  status self = SHUTDOWN -> after op self = self.
Proof.
  intros Hs. destruct op; simpl; try reflexivity.
  by rewrite execute_command_shutdown.
Qed.

Lemma after_all_shutdown ops : forall self,
  status self = SHUTDOWN -> after_all ops self = self.
Proof.
  induction ops as [|op ops IH]; intros self Hs; [reflexivity|].
  simpl. rewrite after_shutdown by done. by apply IH.
Qed.

(** C8. Shutdown is terminal.  Once the status of a robot is Shutdown,
    no sequence of public operations changes it, or anything else in the
    robot; and every later call of [execute_command] raises at once, with
    law number 3, and leaves the robot as it was. *)
Theorem shutdown_is_terminal (self : Robot) :
  status self = SHUTDOWN ->
  forall ops : list Operation,
    status (after_all ops self) = SHUTDOWN
    /\ after_all ops self = self
    /\ forall command,
         execute_command command (after_all ops self)
         = (after_all ops self, inl shutdown_error).
Proof.
  intros Hs ops. rewrite after_all_shutdown by done.
  split; [done|]. split; [done|].
  intros command. by apply execute_command_shutdown.
Qed.

Lemma shutdown_is_terminal_witness :
  let destroyed :=
    after (Call_execute_command
             {| action := "self_destruct"; target := None; priority := 10;
                human_safety_impact := 0%float |})
          (fst (Robot_init "R2D2" 0)) in
  status
    (after_all [Call_execute_command (Command_default "move");
                Call_get_status_report;
                Call_execute_command (Command_default "scan")] destroyed)
  = SHUTDOWN.
Proof.
  intros destroyed.
  apply (shutdown_is_terminal destroyed).
  reflexivity.
Defined.

(** ** The energy-cost table *)

Lemma energy_costs_default key :
  key ∉ energy_cost_keys -> energy_costs !! key = None.
Proof.
  unfold energy_cost_keys, energy_costs. intros Hk.
  repeat (rewrite lookup_insert_ne; [|intros <-; apply Hk; set_solver]).
  apply lookup_empty.
Qed.

(** C6. [calculate_energy_cost] lower-cases its argument and looks it up:
    5 for "move", 8 for "pick_up", 3 for "scan", 10 for "assist_human",
    100 for "self_destruct", and 5 for every other action.  The executor
    does not use it: a call of [execute_command] that returns has charged
    exactly 5 units, the energy stopping at 0, whatever the action. *)
Theorem energy_cost_table_not_charged :
  (forall a : string,
     (lower a = "move" -> calculate_energy_cost a = 5)
     /\ (lower a = "pick_up" -> calculate_energy_cost a = 8)
     /\ (lower a = "scan" -> calculate_energy_cost a = 3)
     /\ (lower a = "assist_human" -> calculate_energy_cost a = 10)
     /\ (lower a = "self_destruct" -> calculate_energy_cost a = 100)
     /\ (lower a ∉ energy_cost_keys -> calculate_energy_cost a = 5))
  /\ (forall command self self' result,
        execute_command command self = (self', inr result) ->
        energy self' = Z.max 0 (energy self - 5)).
Proof.
  split.
  - intros a. unfold calculate_energy_cost.
    repeat split; intros H; try (rewrite H; reflexivity).
    by rewrite energy_costs_default.
  - intros command self self' result He.
    by apply execute_command_returned in He as (_ & He & _).
Qed.

Lemma energy_cost_table_not_charged_witness :
  let command :=
    {| action := "SELF_DESTRUCT"; target := None; priority := 10;
       human_safety_impact := 0%float |} in
  let self := fst (Robot_init "R2D2" 0) in
  calculate_energy_cost (action command) = 100
  /\ energy (fst (execute_command command self))
     = Z.max 0 (energy self - 5).
Proof.
  intros command self. split.
  - apply (proj1 energy_cost_table_not_charged (action command)).
    reflexivity.
  - apply (proj2 energy_cost_table_not_charged command self
             (fst (execute_command command self))
             "Robot R2D2 executing emergency shutdown").
    reflexivity.
Defined.

(** ** The fleet *)

Lemma format_03d_index (i : nat) :
  format_03d (Z.of_nat i) = zfill 3 (str_of_int (Z.of_nat i)).
Proof.
  unfold format_03d. destruct (Z.ltb_spec (Z.of_nat i) 0); [lia|done].
Qed.

Lemma format_03d_three_digits (i : nat) :
  (i < 1000)%nat -> format_03d (Z.of_nat i) = three_digits i.
Proof.
  intros Hi.
  assert (Hall : forallb
            (fun j => String.eqb (format_03d (Z.of_nat j)) (three_digits j))
            (seq 0 1000) = true) by (vm_compute; reflexivity).
  rewrite forallb_forall in Hall.
  apply String.eqb_eq. apply Hall. apply in_seq. lia.
Qed.

Lemma range_length count : length (range count) = Z.to_nat count.
Proof. unfold range. by rewrite length_map, length_seq. Qed.

Lemma range_lookup count (i : nat) :
  (i < Z.to_nat count)%nat -> range count !! i = Some (Z.of_nat i).
Proof.
  intros Hi. unfold range. rewrite list_lookup_fmap.
  by rewrite lookup_seq_lt.
Qed.

Lemma construct_each_spec prefix indices : forall total,
  construct_each prefix indices total
  = (map (fun i => new_robot (prefix ++ "-" ++ format_03d i)) indices,
     total + Z.of_nat (length indices)).
Proof.
  induction indices as [|i rest IH]; intros total.
  - simpl. f_equal. lia.
  - cbn [construct_each Robot_init]. rewrite IH.
    cbn [map length]. unfold new_robot. f_equal. lia.
Qed.

(** C7. For a count [n >= 0] and a prefix, [create_robot_fleet] returns
    exactly [n] robots, each as the constructor leaves it; the [i]-th,
    counting from 0, is named by the prefix, a hyphen and [i] padded with
    zeros to three digits (exactly three digits below 1000); and the class
    counter has grown by exactly [n].  In particular a fleet of 3 with
    prefix "WORKER" is WORKER-000, WORKER-001, WORKER-002. *)
Theorem create_robot_fleet_spec (count : Z) (prefix : string) (total : Z) :
  0 <= count ->
  let fleet := fst (create_robot_fleet count prefix total) in
  length fleet = Z.to_nat count
  /\ snd (create_robot_fleet count prefix total) = total + count
  /\ (forall i : nat, (i < Z.to_nat count)%nat ->
        fleet !! i
        = Some (new_robot
                  (prefix ++ "-" ++ zfill 3 (str_of_int (Z.of_nat i))))
        /\ ((i < 1000)%nat ->
            fleet !! i = Some (new_robot (prefix ++ "-" ++ three_digits i))))
  /\ map id (fst (create_robot_fleet 3 "WORKER" total))
     = ["WORKER-000"; "WORKER-001"; "WORKER-002"]
  /\ snd (create_robot_fleet 3 "WORKER" total) = total + 3.
Proof.
  intros Hc fleet. subst fleet. unfold create_robot_fleet.
  rewrite !construct_each_spec. cbn [fst snd].
  rewrite length_map, !range_length.
  split; [done|]. split; [lia|]. split; [|split; [reflexivity|lia]].
  intros i Hi.
  assert (Hl : map (fun j => new_robot (prefix ++ "-" ++ format_03d j))
                 (range count) !! i
               = Some (new_robot
                         (prefix ++ "-" ++ format_03d (Z.of_nat i)))).
  { rewrite list_lookup_fmap, range_lookup by done. reflexivity. }
  split.
  - by rewrite Hl, format_03d_index.
  - intros H1000. by rewrite Hl, format_03d_three_digits.
Qed.

Lemma create_robot_fleet_spec_witness :
  length (fst (create_robot_fleet 3 "WORKER" 1)) = 3%nat
  /\ snd (create_robot_fleet 3 "WORKER" 1) = 1 + 3.
Proof.
  destruct (create_robot_fleet_spec 3 "WORKER" 1) as (Hl & Ht & _);
    [lia|].
  split; [exact Hl|exact Ht].
Defined.

(** ** Letter case *)

(** A robot that has obeyed a self-destruct order refuses "HARM_HUMANITY"
    like any other command. *)
Lemma case_variant_refused_when_shutdown :
  let command := Command_default "HARM_HUMANITY" in
  let self :=
    after (Call_execute_command
             {| action := "self_destruct"; target := None; priority := 10;
                human_safety_impact := 0%float |})
          (fst (Robot_init "R2D2" 0)) in
  human_safety_impact command = 0%float
  /\ lower (action command) = "harm_humanity"
  /\ action command <> "harm_humanity"
  /\ reachable self
  /\ ~ accepted_and_executed command self.
Proof.
  split; [reflexivity|]. split; [reflexivity|]. split; [discriminate|].
  split; [apply reachable_after, reachable_init|].
  intros (_ & self' & result & He). vm_compute in He. discriminate He.
Qed.

(** C9, amended. The compliance check compares the action as it is
    written, the action performer compares it in lower case.  So on a
    robot that is not shut down, for a command whose human-safety impact is
    not greater than 0.0 (0.0 in particular): if the action is
    "harm_humanity" up to letter case but not exactly, the check finds it
    compliant and the call returns through the generic branch; if the
    action is "self_destruct" up to letter case but not exactly, the check
    finds it compliant whatever the priority and the call returns, through
    the generic branch below priority 10.  In both cases the command is
    appended to the history. *)
Theorem case_variants_pass_the_check (command : Command) (self : Robot) :
  PrimFloat.ltb 0 (human_safety_impact command) = false ->
  status self <> SHUTDOWN ->
  (lower (action command) = "harm_humanity" ->
   action command <> "harm_humanity" ->
   accepted_and_executed command self
   /\ exists self',
        execute_command command self
        = (self', inr ("Robot " ++ id self ++ " executed: harm_humanity"))
        /\ command_history self'
           = (command_history self ++ [command])%list)
  /\ (lower (action command) = "self_destruct" ->
      action command <> "self_destruct" ->
      accepted_and_executed command self
      /\ exists self' result,
           execute_command command self = (self', inr result)
           /\ command_history self'
              = (command_history self ++ [command])%list
           /\ (priority command < 10 ->
               result = "Robot " ++ id self ++ " executed: self_destruct")).
Proof.
  intros Hh Hs. split; intros Hl Ha.
  - assert (Hc : check_law_compliance command
                 = {| compliant := true; violated_law := None;
                      reason := None |}).
    { apply check_other; [done| |done]. intros E. by rewrite E in Hl. }
    destruct (execute_command_accepted command self Hs) as (r & Hp & He).
    { by rewrite Hc. }
    rewrite perform_action_generic in Hp by done.
    injection Hp as _ <-.
    split; [split; [by rewrite Hc|eauto]|].
    eexists. split; [exact He|reflexivity].
  - assert (Hc : check_law_compliance command
                 = {| compliant := true; violated_law := None;
                      reason := None |}).
    { apply check_other; [|done|done]. intros E. by rewrite E in Hl. }
    destruct (execute_command_accepted command self Hs) as (r & Hp & He).
    { by rewrite Hc. }
    split; [split; [by rewrite Hc|eauto]|].
    eexists. exists r. split; [exact He|]. split; [reflexivity|].
    intros Hlow. revert Hp. unfold perform_action, shuts_down. unfold_monad.
    rewrite Hl. simpl.
    destruct (Z.leb_spec 10 (priority command)); [lia|].
    by intros [= <-].
Qed.

Lemma case_variants_pass_the_check_witness :
  accepted_and_executed (Command_default "HARM_HUMANITY")
    (fst (Robot_init "R2D2" 0))
  /\ accepted_and_executed (Command_default "Self_Destruct")
       (fst (Robot_init "R2D2" 0)).
Proof.
  split.
  - apply (proj1 (case_variants_pass_the_check
                    (Command_default "HARM_HUMANITY")
                    (fst (Robot_init "R2D2" 0)) eq_refl
                    ltac:(simpl; discriminate))).
    + reflexivity.
    + simpl. discriminate.
  - apply (proj2 (case_variants_pass_the_check
                    (Command_default "Self_Destruct")
                    (fst (Robot_init "R2D2" 0)) eq_refl
                    ltac:(simpl; discriminate))).
    + reflexivity.
    + simpl. discriminate.
Defined.

(** ** The Error status *)

(** What [perform_action] returns does not depend on the status. *)
Lemma perform_action_any_status command s self :
  snd (perform_action command (with_status s self))
  = snd (perform_action command self).
Proof.
  unfold perform_action. unfold_monad. simpl.
  repeat match goal with
         | |- context [String.eqb ?a ?b] => destruct (String.eqb a b)
         end;
    simpl; try destruct (10 <=? priority command); reflexivity.
Qed.

(** C10. The Error status does not block a robot.  For a robot whose
    status is Error and a command that the compliance check accepts,
    [execute_command] returns, and returns what it returns for the same
    robot with status Active, with the same energy and history afterwards;
    both robots end up shut down, or each keeps the status it had.  And
    the status report of a robot whose status is Error says it can operate
    whenever its energy is above 0. *)
Theorem error_status_does_not_block (command : Command) (self : Robot) :
  status self = ERROR ->
  compliant (check_law_compliance command) = true ->
  (exists result self' active',
     execute_command command self = (self', inr result)
     /\ execute_command command (with_status ACTIVE self)
        = (active', inr result)
     /\ id self' = id active'
     /\ energy self' = energy active'
     /\ energy self' = Z.max 0 (energy self - 5)
     /\ command_history self' = command_history active'
     /\ command_history self' = (command_history self ++ [command])%list
     /\ ((status self' = SHUTDOWN /\ status active' = SHUTDOWN)
         \/ (status self' = ERROR /\ status active' = ACTIVE)))
  /\ (0 < energy self -> can_operate (get_status_report self) = true).
Proof.
  intros Hs Hc. split.
  - destruct (execute_command_accepted command self) as (r & Hp & He);
      [congruence|done|].
    destruct (execute_command_accepted command (with_status ACTIVE self))
      as (ra & Hpa & Hea); [simpl; discriminate|done|].
    assert (ra = r) as ->.
    { pose proof (perform_action_any_status command ACTIVE self) as E.
      rewrite Hp, Hpa in E. simpl in E. congruence. }
    exists r. eexists. eexists.
    split; [exact He|]. split; [exact Hea|]. simpl.
    repeat (split; [reflexivity|]).
    unfold status_after. simpl. rewrite Hs.
    destruct (decide _); [by left|].
    destruct (shuts_down command); [by left|by right].
  - intros He. unfold get_status_report. simpl. rewrite Hs.
    apply andb_true_iff. split; [by apply Z.ltb_lt|reflexivity].
Qed.

Lemma error_status_does_not_block_witness :
  let self :=
    {| id := "R2D2"; status := ERROR; energy := 50;
       command_history := [] |} in
  can_operate (get_status_report self) = true.
Proof.
  intros self.
  apply (proj2 (error_status_does_not_block
                  (Command_default "move") self eq_refl eq_refl)).
  simpl. lia.
Defined.

(** * Further properties *)

(** ** The compliance check *)

(** X1. The three entries of the result of [check_law_compliance] agree:
    the command is compliant exactly when no law is named and exactly when
    no reason is given; and a law that is named is 0, 1 or 3, never 2. *)
Theorem check_law_compliance_shape (command : Command) :
  let result := check_law_compliance command in
  (compliant result = true <-> violated_law result = None)
  /\ (compliant result = true <-> reason result = None)
  /\ (compliant result = false ->
      violated_law result = Some 0 \/ violated_law result = Some 1
      \/ violated_law result = Some 3)
  /\ violated_law result <> Some 2.
Proof.
  unfold check_law_compliance.
  destruct (String.eqb (action command) "harm_humanity");
    [|destruct (PrimFloat.ltb 0 (human_safety_impact command));
      [|destruct (String.eqb (action command) "self_destruct"
                  && (priority command <? 10))]];
    simpl; repeat split; intros; auto; discriminate.
Qed.

Lemma check_law_compliance_shape_witness :
  violated_law (check_law_compliance (Command_default "harm_humanity"))
  = Some 0
  \/ violated_law (check_law_compliance (Command_default "harm_humanity"))
     = Some 1
  \/ violated_law (check_law_compliance (Command_default "harm_humanity"))
     = Some 3.
Proof.
  apply (check_law_compliance_shape (Command_default "harm_humanity")).
  reflexivity.
Defined.

(** X2. The verdict does not depend on the target, and depends on the
    priority only when the action is exactly "self_destruct". *)
Theorem check_law_compliance_ignores (command : Command) :
  (forall t, check_law_compliance (with_target t command)
             = check_law_compliance command)
  /\ (action command <> "self_destruct" ->
      forall p, check_law_compliance (with_priority p command)
                = check_law_compliance command).
Proof.
  split.
  - reflexivity.
  - intros Ha p. unfold check_law_compliance. simpl.
    apply String.eqb_neq in Ha. by rewrite Ha.
Qed.

Lemma check_law_compliance_ignores_witness :
  check_law_compliance
    (with_priority 99 (Command_default "harm_humanity"))
  = check_law_compliance (Command_default "harm_humanity").
Proof.
  apply (proj2 (check_law_compliance_ignores
                  (Command_default "harm_humanity"))).
  simpl. discriminate.
Defined.


(** ** The exceptions of [execute_command] *)

(** X3. Whatever [execute_command] raises carries the law number 0, 1 or
    3, never 2 and never none, and its message is "Law", that same number,
    "Violation:" and one of four fixed reasons. *)
Theorem raised_errors_are_well_formed (command : Command) (self self' : Robot)
    (e : LawViolationError) :
  execute_command command self = (self', inl e) ->
  exists law why,
    (law = 0 \/ law = 1 \/ law = 3)
    /\ why ∈ reasons
    /\ law_number e = Some law
    /\ message e = "Law " ++ str_of_int law ++ " Violation: " ++ why.
Proof.
  intros He.
  destruct (execute_command_cases command self)
    as [[_ H]|[(_ & Hc & H)|(_ & _ & r & H)]];
    rewrite H in He; [| |discriminate He]; injection He as _ <-.
  - exists 3, "Robot is shutdown and cannot execute commands".
    unfold reasons. split; [auto|]. split; [set_solver|done].
  - revert Hc. unfold check_law_compliance, reasons.
    destruct (String.eqb (action command) "harm_humanity");
      [|destruct (PrimFloat.ltb 0 (human_safety_impact command));
        [|destruct (String.eqb (action command) "self_destruct"
                    && (priority command <? 10))]];
      simpl; intros Hc; try discriminate Hc.
    + exists 0, "Action would harm humanity".
      split; [auto|]. split; [set_solver|done].
    + exists 1, "Action would harm a human being".
      split; [auto|]. split; [set_solver|done].
    + exists 3,
        "Self-destruction violates Third Law without sufficient priority".
      split; [auto|]. split; [set_solver|done].
Qed.

Lemma raised_errors_are_well_formed_witness :
  exists law why,
    (law = 0 \/ law = 1 \/ law = 3)
    /\ why ∈ reasons
    /\ law_number
         (LawViolationError_init (Some 3)
            (Some "Self-destruction violates Third Law without sufficient priority"))
       = Some law
    /\ message
         (LawViolationError_init (Some 3)
            (Some "Self-destruction violates Third Law without sufficient priority"))
       = "Law " ++ str_of_int law ++ " Violation: " ++ why.
Proof.
  apply (raised_errors_are_well_formed
           (Command_default "self_destruct")
           (fst (Robot_init "R2D2" 0)) (fst (Robot_init "R2D2" 0))).
  reflexivity.
Defined.

(** ** Invariants of the reachable states *)

Lemma robot_invariant_init robot_id total :
  robot_invariant (fst (Robot_init robot_id total)).
Proof.
  split; simpl; try done; try lia; [auto|].
  split; [discriminate|]. intros [H|(c & H & _)]; discriminate H.
Qed.

Lemma robot_invariant_after op self :
  robot_invariant self -> robot_invariant (after op self).
Proof.
  intros Hinv. destruct op; simpl; try exact Hinv.
  destruct (execute_command_cases command self)
    as [[_ H]|[(_ & _ & H)|(Hs & Hc & r & H)]];
    rewrite H; simpl; try exact Hinv.
  destruct Hinv as [He Hn Hst Hsd Hh].
  assert (Hpos : 5 <= energy self).
  { destruct (decide (energy self = 0)) as [E|E]; [|lia].
    exfalso. apply Hs, Hsd. by left. }
  assert (Hact : status self = ACTIVE) by (destruct Hst; done).
  split; simpl.
  - rewrite length_app. simpl. lia.
  - lia.
  - unfold status_after. destruct (decide _); [by right|].
    destruct (shuts_down command); [by right|by left].
  - rewrite last_snoc. unfold status_after. split.
    + destruct (decide _) as [E|E]; [by left|].
      destruct (shuts_down command) eqn:Hd; [|congruence].
      intros _. right. eauto.
    + intros [E|(c & [= <-] & Hd)].
      * by rewrite decide_true_if.
      * rewrite Hd. by destruct (decide _).
  - apply Forall_app. split; [done|]. by constructor.
Qed.

Lemma reachable_invariant self : reachable self -> robot_invariant self.
Proof.
  induction 1 as [robot_id total|op self _ IH].
  - apply robot_invariant_init.
  - by apply robot_invariant_after.
Qed.

(** X4. In every reachable state the energy is 100 minus 5 for each
    command in the history; so a robot executes at most 20 commands in its
    life. *)
Theorem energy_counts_the_history (self : Robot) :
  reachable self ->
  energy self = 100 - 5 * Z.of_nat (length (command_history self))
  /\ (length (command_history self) <= 20)%nat
  /\ report_energy (get_status_report self)
     = 100 - 5 * Z.of_nat (commands_executed (get_status_report self)).
Proof.
  intros Hr. destruct (reachable_invariant self Hr) as [He Hn _ _ _].
  split; [exact He|]. split; [lia|exact He].
Qed.

Lemma energy_counts_the_history_witness :
  energy (after (Call_execute_command (Command_default "move"))
            (fst (Robot_init "R2D2" 0)))
  = 100 - 5 * Z.of_nat
              (length (command_history
                         (after (Call_execute_command (Command_default "move"))
                            (fst (Robot_init "R2D2" 0))))).
Proof.
  apply (energy_counts_the_history
           (after (Call_execute_command (Command_default "move"))
              (fst (Robot_init "R2D2" 0)))).
  apply reachable_after, reachable_init.
Defined.



(** X6. For a reachable robot the entry can_operate of the status report
    tells whether commands will be executed: it is true exactly when the
    status is Active, and exactly when [execute_command] returns for every
    compliant command. *)
Theorem can_operate_is_accurate (self : Robot) :
  reachable self ->
  (can_operate (get_status_report self) = true <-> status self = ACTIVE)
  /\ (can_operate (get_status_report self) = true
      <-> forall command,
            compliant (check_law_compliance command) = true ->
            exists self' result,
              execute_command command self = (self', inr result)).
Proof.
  intros Hr. destruct (reachable_invariant self Hr) as [_ Hn Hst Hsd _].
  assert (Hop : can_operate (get_status_report self) = true
                <-> status self = ACTIVE).
  { unfold get_status_report. simpl. rewrite andb_true_iff, Z.ltb_lt.
    split.
    - intros [_ Hb]. destruct Hst as [|E]; [done|]. by rewrite E in Hb.
    - intros E. rewrite E. split; [|done].
      destruct (decide (energy self = 0)) as [E0|E0]; [|lia].
      assert (status self = SHUTDOWN) by (apply Hsd; by left). congruence. }
  split; [exact Hop|]. rewrite Hop. split.
  - intros E command Hc.
    destruct (execute_command_accepted command self) as (r & _ & He);
      [congruence|done|eauto].
  - intros Hall. destruct Hst as [|E]; [done|].
    destruct (Hall (Command_default "move") eq_refl) as (self' & r & He).
    by rewrite execute_command_shutdown in He.
Qed.

Lemma can_operate_is_accurate_witness :
  can_operate (get_status_report (fst (Robot_init "R2D2" 0))) = true
  <-> status (fst (Robot_init "R2D2" 0)) = ACTIVE.
Proof.
  apply (can_operate_is_accurate (fst (Robot_init "R2D2" 0))).
  apply reachable_init.
Defined.



(** ** What the operations never change *)

Lemma after_frame op self :
  id (after op self) = id self
  /\ command_history self `prefix_of` command_history (after op self)
  /\ (0 <= energy self -> 0 <= energy (after op self) <= energy self).
Proof.
  destruct op; simpl; try (split; [done|split; [done|lia]]).
  destruct (execute_command_cases command self)
    as [[_ H]|[(_ & _ & H)|(_ & _ & r & H)]];
    rewrite H; simpl; try (split; [done|split; [done|lia]]).
  split; [done|]. split; [by apply prefix_app_r|lia].
Qed.

(** X8. No sequence of public operations changes the identifier of a
    robot, removes or reorders a command of its history (the old history is
    a prefix of the new one), or raises its energy. *)
Theorem operations_only_append_and_consume (ops : list Operation)
    (self : Robot) :
  id (after_all ops self) = id self
  /\ command_history self `prefix_of` command_history (after_all ops self)
  /\ (0 <= energy self -> 0 <= energy (after_all ops self) <= energy self).
Proof.
  revert self. induction ops as [|op ops IH]; intros self.
  - simpl. split; [done|]. split; [done|lia].
  - simpl. destruct (IH (after op self)) as (Hi & Hp & He).
    destruct (after_frame op self) as (Hi1 & Hp1 & He1).
    split; [congruence|]. split; [by etrans|].
    intros Hn. specialize (He1 Hn). lia.
Qed.

Lemma operations_only_append_and_consume_witness :
  0 <= energy
         (after_all [Call_execute_command (Command_default "move");
                     Call_get_status_report]
            (fst (Robot_init "R2D2" 0)))
    <= energy (fst (Robot_init "R2D2" 0)).
Proof.
  apply (operations_only_append_and_consume
           [Call_execute_command (Command_default "move");
            Call_get_status_report]
           (fst (Robot_init "R2D2" 0))).
  simpl. lia.
Defined.

(** ** Runs of commands *)

Lemma execute_all_cons c commands self :
  execute_all (c :: commands) self
  = (fst (execute_all commands (fst (execute_command c self))),
     snd (execute_command c self)
     :: snd (execute_all commands (fst (execute_command c self)))).
Proof.
  simpl. destruct (execute_command c self) as [self1 outcome]. simpl.
  by destruct (execute_all commands self1).
Qed.

(** X9. A run of [execute_all] gives one outcome per command, and leaves
    in the history, after what was there, exactly the commands whose call
    returned, in the order they were given. *)
Theorem execute_all_history (commands : list Command) (self : Robot) :
  length (snd (execute_all commands self)) = length commands
  /\ command_history (fst (execute_all commands self))
     = (command_history self
        ++ executed commands (snd (execute_all commands self)))%list.
Proof.
  revert self. induction commands as [|c commands IH]; intros self.
  - simpl. by rewrite app_nil_r.
  - rewrite execute_all_cons. cbn [fst snd length].
    destruct (IH (fst (execute_command c self))) as [Hl Hh].
    split; [by rewrite Hl|]. rewrite Hh.
    destruct (execute_command_cases c self)
      as [[_ H]|[(_ & _ & H)|(_ & _ & r & H)]];
      rewrite H; cbn [fst snd executed command_history]; try done.
    by rewrite <- app_assoc.
Qed.


(** X11. A robot that is not shut down obeys a whole list of compliant
    commands, none of them a self-destruct order, as long as its energy
    exceeds 5 per command: every call returns, the commands are appended to
    the history in order, 5 units are charged for each, and the status is
    what it was. *)
Theorem enough_energy_executes_all (commands : list Command) (self : Robot) :
  status self <> SHUTDOWN ->
  Forall (fun c => compliant (check_law_compliance c) = true
                   /\ shuts_down c = false) commands ->
  5 * Z.of_nat (length commands) < energy self ->
  Forall succeeded (snd (execute_all commands self))
  /\ command_history (fst (execute_all commands self))
     = (command_history self ++ commands)%list
  /\ energy (fst (execute_all commands self))
     = energy self - 5 * Z.of_nat (length commands)
  /\ status (fst (execute_all commands self)) = status self
  /\ id (fst (execute_all commands self)) = id self.
Proof.
  revert self. induction commands as [|c commands IH]; intros self Hs Hall He.
  - simpl. rewrite app_nil_r. repeat split; [constructor|lia].
  - apply Forall_cons in Hall as [[Hc Hd] Hall].
    rewrite execute_all_cons. cbn [fst snd length] in *.
    destruct (execute_command_accepted c self Hs Hc) as (r & _ & H).
    assert (Hst : status_after c self = status self).
    { unfold status_after. rewrite Hd.
      rewrite decide_false_if by lia. reflexivity. }
    assert (Hs1 : status (fst (execute_command c self)) <> SHUTDOWN).
    { rewrite H. simpl. by rewrite Hst. }
    assert (He1 : 5 * Z.of_nat (length commands)
                  < energy (fst (execute_command c self))).
    { rewrite H. simpl. lia. }
    destruct (IH _ Hs1 Hall He1) as (Hok & Hh & Hen & Hs' & Hi).
    rewrite H in Hok, Hh, Hen, Hs', Hi |- *. cbn [fst snd] in *.
    rewrite Hh, Hen, Hs', Hi. simpl.
    split; [constructor; [by eexists|done]|].
    split; [by rewrite <- app_assoc|]. split; [lia|done].
Qed.

Lemma enough_energy_executes_all_witness :
  Forall succeeded
    (snd (execute_all [Command_default "move"; Command_default "Dance"]
            (fst (Robot_init "R2D2" 0)))).
Proof.
  apply (enough_energy_executes_all
           [Command_default "move"; Command_default "Dance"]
           (fst (Robot_init "R2D2" 0))).
  - simpl. discriminate.
  - repeat constructor.
  - simpl. lia.
Defined.

(** ** Letter case of actions *)

Lemma lower_char_idempotent c : lower_char (lower_char c) = lower_char c.
Proof. by destruct c as [[|] [|] [|] [|] [|] [|] [|] [|]]. Qed.

Lemma lower_idempotent s : lower (lower s) = lower s.
Proof.
  induction s as [|c s IH]; [done|].
  simpl. by rewrite lower_char_idempotent, IH.
Qed.

Lemma lower_length s : String.length (lower s) = String.length s.
Proof. induction s as [|c s IH]; [done|]. simpl. by rewrite IH. Qed.

(** X12. [calculate_energy_cost] gives the same cost for an action and
    for its lower-case form, the cost is one of 3, 5, 8, 10 and 100, and it
    is 5 for the empty action. *)
Theorem calculate_energy_cost_range (a : string) :
  calculate_energy_cost (lower a) = calculate_energy_cost a
  /\ calculate_energy_cost a ∈ [3; 5; 8; 10; 100]
  /\ calculate_energy_cost "" = 5.
Proof.
  unfold calculate_energy_cost. rewrite lower_idempotent.
  split; [done|]. split; [|done].
  destruct (decide (lower a ∈ energy_cost_keys)) as [Hin|Hout].
  - unfold energy_cost_keys in Hin.
    repeat (apply elem_of_cons in Hin as [->|Hin]; [vm_compute; set_solver|]).
    by apply elem_of_nil in Hin.
  - rewrite energy_costs_default by done. simpl. set_solver.
Qed.

(** X13. [perform_action] matches the action whatever its letter case: a
    command and the same command with its action in lower case give the
    same result and leave the robot in the same state. *)
Theorem perform_action_ignores_case (command : Command) (self : Robot) :
  perform_action (with_action (lower (action command)) command) self
  = perform_action command self.
Proof.
  unfold perform_action, with_action. simpl.
  by rewrite lower_idempotent.
Qed.

(** ** Actions and targets out of the ordinary *)

(** X14. An action that [perform_action] has no branch for is not
    refused.  On a robot that is not shut down, a command with such an
    action, other than "harm_humanity" and with no human-safety impact
    above 0.0, is executed: the call returns the generic message with the
    action in lower case, the command is appended to the history and 5
    units are charged; the robot shuts down only if that exhausts it. *)
Theorem unknown_action_is_executed (command : Command) (self : Robot) :
  status self <> SHUTDOWN ->
  action command <> "harm_humanity" ->
  PrimFloat.ltb 0 (human_safety_impact command) = false ->
  lower (action command) ∉ handled_actions ->
  execute_command command self
  = ({| id := id self;
        status := if decide (Z.max 0 (energy self - 5) = 0)
                  then SHUTDOWN else status self;
        energy := Z.max 0 (energy self - 5);
        command_history := command_history self ++ [command] |},
     inr ("Robot " ++ id self ++ " executed: " ++ lower (action command))).
Proof.
  intros Hs Ha Hh Hl. unfold handled_actions in Hl.
  assert (Hne : forall k, k ∈ handled_actions ->
                  String.eqb (lower (action command)) k = false).
  { intros k Hk. apply String.eqb_neq. intros E. apply Hl. by rewrite E. }
  assert (Hsd : action command <> "self_destruct").
  { intros E. apply Hl. rewrite E. vm_compute. set_solver. }
  destruct (execute_command_accepted command self Hs) as (r & Hp & He).
  { by rewrite check_other. }
  rewrite He. revert Hp.
  unfold perform_action, status_after, shuts_down. unfold_monad.
  rewrite !Hne by (unfold handled_actions; set_solver). simpl.
  by intros [= <-].
Qed.

Lemma unknown_action_is_executed_witness :
  execute_command (Command_default "Dance") (fst (Robot_init "R2D2" 0))
  = ({| id := "R2D2"; status := ACTIVE; energy := 95;
        command_history := [Command_default "Dance"] |},
     inr "Robot R2D2 executed: dance").
Proof.
  apply (unknown_action_is_executed
           (Command_default "Dance") (fst (Robot_init "R2D2" 0))).
  - simpl. discriminate.
  - simpl. discriminate.
  - reflexivity.
  - vm_compute. intros H.
    repeat (apply elem_of_cons in H as [H|H]; [discriminate H|]).
    by apply elem_of_nil in H.
Defined.

(** X15. A missing target is printed, not refused.  "scan" without a
    target, or with the empty string as target, scans the "surroundings",
    and with any other target scans that target; "move", "pick_up" and
    "assist_human" without a target print "None" in its place. *)
Theorem missing_target_is_printed (command : Command) (self : Robot) :
  (lower (action command) = "scan" ->
   (target command = None \/ target command = Some "" ->
    perform_action command self
    = (self, inr ("Robot " ++ id self ++ " scanned the area: surroundings")))
   /\ (forall t, target command = Some t -> t <> "" ->
       perform_action command self
       = (self, inr ("Robot " ++ id self ++ " scanned the area: " ++ t))))
  /\ (target command = None ->
      (lower (action command) = "move" ->
       perform_action command self
       = (self, inr ("Robot " ++ id self ++ " moved to None")))
      /\ (lower (action command) = "pick_up" ->
          perform_action command self
          = (self, inr ("Robot " ++ id self ++ " picked up None")))
      /\ (lower (action command) = "assist_human" ->
          perform_action command self
          = (self,
             inr ("Robot " ++ id self ++ " is assisting human with None")))).
Proof.
  unfold perform_action. unfold_monad.
  split; [intros Hl; split|intros Ht; repeat split; intros Hl];
    rewrite Hl; simpl.
  - by intros [->| ->].
  - intros t -> Hne. simpl. apply String.eqb_neq in Hne. by rewrite Hne.
  - by rewrite Ht.
  - by rewrite Ht.
  - by rewrite Ht.
Qed.

Lemma missing_target_is_printed_witness :
  perform_action (with_target (Some "") (Command_default "Scan"))
    (fst (Robot_init "R2D2" 0))
  = (fst (Robot_init "R2D2" 0),
     inr ("Robot " ++ id (fst (Robot_init "R2D2" 0))
          ++ " scanned the area: surroundings")).
Proof.
  apply (proj1 (proj1 (missing_target_is_printed
                         (with_target (Some "") (Command_default "Scan"))
                         (fst (Robot_init "R2D2" 0))) eq_refl)).
  right. reflexivity.
Defined.

(** ** Consuming energy *)

(** X16. [consume_energy] never raises and touches neither the identifier
    nor the history.  It leaves the energy at the old energy minus the
    amount, or at 0 if that is negative; the robot is shut down afterwards
    exactly when it has no energy left or was shut down before, and
    otherwise keeps its status.  With an amount that is not negative the
    energy does not grow. *)
Theorem consume_energy_spec (amount : Z) (self : Robot) :
  exists self',
    consume_energy amount self = (self', inr tt)
    /\ id self' = id self
    /\ command_history self' = command_history self
    /\ energy self' = Z.max 0 (energy self - amount)
    /\ 0 <= energy self'
    /\ (status self' = SHUTDOWN
        <-> energy self' = 0 \/ status self = SHUTDOWN)
    /\ (status self' <> SHUTDOWN -> status self' = status self)
    /\ (0 <= amount -> 0 <= energy self -> energy self' <= energy self).
Proof.
  unfold consume_energy, MIN_ENERGY. unfold_monad. simpl.
  destruct (decide (Z.max 0 (energy self - amount) = 0)) as [E|E];
    eexists; (split; [reflexivity|]); simpl;
    repeat split; try done; try lia; auto.
  all: try (intros [?|?]; done); intros; lia.
Qed.

Lemma consume_energy_spec_witness :
  exists self',
    consume_energy 500 (fst (Robot_init "R2D2" 0)) = (self', inr tt)
    /\ energy self' = 0 /\ status self' = SHUTDOWN.
Proof.
  destruct (consume_energy_spec 500 (fst (Robot_init "R2D2" 0)))
    as (self' & Hc & _ & _ & He & _ & Hs & _).
  exists self'. split; [exact Hc|]. split; [exact He|].
  apply Hs. left. exact He.
Defined.

(** ** Names and size of a fleet *)

Lemma string_length_append (s t : string) :
  String.length (s ++ t) = (String.length s + String.length t)%nat.
Proof. induction s as [|c s IH]; [done|]. simpl. by rewrite IH. Qed.

Lemma zeros_length k : String.length (zeros k) = k.
Proof. induction k as [|k IH]; [done|]. simpl. by rewrite IH. Qed.

Lemma zfill_length width digits :
  (width <= String.length (zfill width digits))%nat.
Proof.
  unfold zfill. rewrite string_length_append, zeros_length. lia.
Qed.

Lemma append_inj_l (p a b : string) : p ++ a = p ++ b -> a = b.
Proof. induction p as [|c p IH]; [done|]. simpl. intros [= H]. auto. Qed.

(** Reading digits behind zeros. *)
Lemma uint_of_string_zeros k s d :
  NilEmpty.uint_of_string s = Some d ->
  NilEmpty.uint_of_string (zeros k ++ s) = Some (Nat.iter k Decimal.D0 d).
Proof.
  intros Hs. induction k as [|k IH]; [done|].
  change (NilEmpty.uint_of_string (zeros (S k) ++ s))
    with (uint_of_char "0" (NilEmpty.uint_of_string (zeros k ++ s))).
  rewrite IH. reflexivity.
Qed.

Lemma of_uint_leading_zeros k d :
  Z.of_uint (Nat.iter k Decimal.D0 d) = Z.of_uint d.
Proof. induction k as [|k IH]; [done|]. simpl. exact IH. Qed.

(** A string of digits is read as a number that is not negative. *)
Lemma int_of_string_digits s d :
  s <> "" ->
  NilEmpty.uint_of_string s = Some d ->
  NilZero.int_of_string s = Some (Decimal.Pos d).
Proof.
  intros Hne Hs. destruct s as [|a s]; [done|].
  unfold NilZero.int_of_string, NilZero.uint_of_string. rewrite Hs.
  simpl in Hs. destruct (NilEmpty.uint_of_string s) as [d'|]; [|done].
  apply uint_of_char_spec in Hs.
  destruct (Ascii.eqb_spec a "-") as [->|]; [|done].
  exfalso. intuition discriminate.
Qed.

(** A minus sign before a string of digits. *)
Lemma int_of_string_minus s d :
  s <> "" ->
  NilEmpty.uint_of_string s = Some d ->
  NilZero.int_of_string (String "-" s) = Some (Decimal.Neg d).
Proof.
  intros Hne Hs. unfold NilZero.int_of_string.
  change (Ascii.eqb "-" "-") with true. cbv iota.
  unfold NilZero.uint_of_string. destruct s; [done|]. by rewrite Hs.
Qed.

Lemma zfill_digits_nonempty width p :
  zfill width (NilEmpty.string_of_uint (Pos.to_uint p)) <> "".
Proof.
  unfold zfill. intros E.
  apply (f_equal String.length) in E.
  rewrite string_length_append in E. simpl in E.
  assert (String.length (NilEmpty.string_of_uint (Pos.to_uint p)) = 0%nat)
    as E0 by lia.
  pose proof (DecimalPos.Unsigned.to_uint_nonnil p) as Hn.
  by destruct (Pos.to_uint p).
Qed.

Lemma string_of_uint_pos p :
  NilZero.string_of_uint (Pos.to_uint p)
  = NilEmpty.string_of_uint (Pos.to_uint p).
Proof.
  pose proof (DecimalPos.Unsigned.to_uint_nonnil p) as Hn.
  by destruct (Pos.to_uint p).
Qed.

(** The padded digits of a positive number read back as that number. *)
Lemma uint_of_zfill width p :
  NilEmpty.uint_of_string
    (zfill width (NilEmpty.string_of_uint (Pos.to_uint p)))
  = Some (Nat.iter
            (width - String.length
                       (NilEmpty.string_of_uint (Pos.to_uint p)))
            Decimal.D0 (Pos.to_uint p)).
Proof. unfold zfill. apply uint_of_string_zeros, NilEmpty.usu. Qed.

Lemma int_of_str_format_03d (i : Z) : int_of_str (format_03d i) = Some i.
Proof.
  unfold int_of_str, format_03d, str_of_int.
  destruct i as [|p|p].
  - reflexivity.
  - change (Z.pos p <? 0) with false. cbv iota.
    cbn [Z.to_int NilZero.string_of_int]. rewrite string_of_uint_pos.
    rewrite (int_of_string_digits _ _ (zfill_digits_nonempty 3 p)
               (uint_of_zfill 3 p)).
    simpl. f_equal. rewrite of_uint_leading_zeros.
    exact (DecimalZ.of_to (Z.pos p)).
  - change (Z.neg p <? 0) with true. cbv iota.
    change (Z.to_int (Z.abs (Z.neg p))) with (Decimal.Pos (Pos.to_uint p)).
    cbn [NilZero.string_of_int]. rewrite string_of_uint_pos.
    change ("-" ++ ?t) with (String "-" t).
    rewrite (int_of_string_minus _ _ (zfill_digits_nonempty 2 p)
               (uint_of_zfill 2 p)).
    simpl. f_equal. rewrite of_uint_leading_zeros.
    exact (DecimalZ.of_to (Z.neg p)).
Qed.

Lemma format_03d_inj (i j : Z) : format_03d i = format_03d j -> i = j.
Proof.
  intros E. apply (f_equal int_of_str) in E.
  rewrite !int_of_str_format_03d in E. congruence.
Qed.

(** X17. [create_robot_fleet] accepts any count.  It returns as many
    robots as the count says, none when the count is 0 or negative, and
    adds that number to the class counter; with a count of 0 or less the
    counter stays as it was. *)
Theorem create_robot_fleet_any_count (count : Z) (prefix : string)
    (total : Z) :
  length (fst (create_robot_fleet count prefix total)) = Z.to_nat count
  /\ snd (create_robot_fleet count prefix total) = total + Z.max 0 count
  /\ (count <= 0 -> create_robot_fleet count prefix total = ([], total)).
Proof.
  unfold create_robot_fleet. rewrite construct_each_spec. cbn [fst snd].
  rewrite length_map, range_length.
  split; [done|]. split; [lia|].
  intros Hc. unfold range.
  replace (Z.to_nat count) with 0%nat by lia. simpl. f_equal. lia.
Qed.

Lemma create_robot_fleet_any_count_witness :
  create_robot_fleet (-2) "WORKER" 7 = ([], 7).
Proof.
  apply (create_robot_fleet_any_count (-2) "WORKER" 7). lia.
Defined.

(** X18. The index field of a robot's name loses nothing: whatever the
    index, negative ones included, the field printed by the format [03d]
    has at least three characters and reads back as the index. *)
Theorem format_03d_round_trip (i : Z) :
  int_of_str (format_03d i) = Some i
  /\ (3 <= String.length (format_03d i))%nat.
Proof.
  split; [apply int_of_str_format_03d|].
  unfold format_03d. destruct (i <? 0).
  - rewrite string_length_append.
    pose proof (zfill_length 2 (str_of_int (Z.abs i))). simpl. lia.
  - apply zfill_length.
Qed.

(** X19. The robots of one fleet have pairwise distinct identifiers. *)
Theorem fleet_ids_are_distinct (count : Z) (prefix : string) (total : Z) :
  NoDup (map id (fst (create_robot_fleet count prefix total))).
Proof.
  unfold create_robot_fleet. rewrite construct_each_spec. cbn [fst].
  rewrite map_map. cbn [id new_robot]. unfold range. rewrite map_map.
  apply NoDup_fmap_2_strong; [|apply NoDup_seq].
  intros i j _ _ E. apply append_inj_l in E.
  cbn [append] in E. injection E as E.
  apply format_03d_inj in E. lia.
Qed.

(** ** What a caller is told *)

(** X20. Whatever [execute_command] returns starts with "Robot", a
    space, the identifier of the robot and a space. *)
Theorem result_names_the_robot (command : Command) (self self' : Robot)
    (result : string) :
  execute_command command self = (self', inr result) ->
  exists rest, result = "Robot " ++ id self ++ " " ++ rest.
Proof.
  intros He.
  destruct (execute_command_cases command self)
    as [[_ H]|[(_ & _ & H)|(Hs & Hc & r & H)]];
    [rewrite H in He; discriminate He
    |rewrite H in He; discriminate He|].
  destruct (execute_command_accepted command self Hs Hc) as (r' & Hp & H').
  assert (result = r') as -> by congruence.
  revert Hp. unfold perform_action. unfold_monad.
  repeat match goal with
         | |- context [String.eqb ?a ?b] => destruct (String.eqb a b)
         end;
    simpl; try destruct (10 <=? priority command); simpl;
    intros [= _ <-]; eexists; reflexivity.
Qed.

Lemma result_names_the_robot_witness :
  exists rest,
    "Robot R2D2 moved to kitchen"
    = "Robot " ++ id (fst (Robot_init "R2D2" 0)) ++ " " ++ rest.
Proof.
  apply (result_names_the_robot
           (with_target (Some "kitchen") (Command_default "move"))
           (fst (Robot_init "R2D2" 0))
           (fst (execute_command
                   (with_target (Some "kitchen") (Command_default "move"))
                   (fst (Robot_init "R2D2" 0))))).
  reflexivity.
Defined.

Lemma value_inj s1 s2 : value s1 = value s2 -> s1 = s2.
Proof. destruct s1, s2; simpl; intros E; done || discriminate E. Qed.

(** X21. Two status reports are equal exactly when the robots have the
    same identifier, status and energy and have executed the same number of
    commands: the display values of the four statuses are distinct, and
    can_operate adds nothing to the other entries. *)
Theorem status_report_determines (self1 self2 : Robot) :
  get_status_report self1 = get_status_report self2
  <-> id self1 = id self2
      /\ status self1 = status self2
      /\ energy self1 = energy self2
      /\ length (command_history self1) = length (command_history self2).
Proof.
  unfold get_status_report. split.
  - intros [= Hi Hs He Hl _]. apply value_inj in Hs. auto.
  - intros (-> & -> & -> & ->). reflexivity.
Qed.
